(** * Debug adapter registry, session manager and debug service

    A shallow embedding of the three classes of the debug back end
    ([DebugAdapterContributionRegistry], [DebugAdapterSessionManager] and
    [DebugServiceImpl]) together with the properties of their lifecycle
    bookkeeping.

    Conventions of the embedding:
    - an ECMAScript [Map<string, V>] is an insertion-ordered association list
      (module [JsMap]);
    - a call that may throw returns a [completion];
    - the result of an [async] method is the settled state of its promise
      ([promise]);
    - mutable objects live in an explicit store ([State]) that is threaded
      through the methods by the monad [M]. *)

From stdpp Require Import base tactics option list strings.

(** ** Thrown values, completions and promises *)

(** A thrown value: either [new Error(message)] or any other value a
    collaborator chooses to throw. *)
Inductive exn : Type :=
  | Error (message : string)
  | Thrown (payload : string).

(** The outcome of a synchronous call. *)
Inductive completion (A : Type) : Type :=
  | Normal (a : A)
  | Throw (e : exn).
Arguments Normal {A} a.
Arguments Throw {A} e.

(** The eventual state of a promise. *)
Inductive promise (A : Type) : Type :=
  | Fulfilled (a : A)
  | Rejected (e : exn)
  | Pending.
Arguments Fulfilled {A} a.
Arguments Rejected {A} e.
Arguments Pending {A}.

(** [p.then(f)] for a callback [f] that does not throw. *)
Definition then_ {A B : Type} (p : promise A) (f : A -> B) : promise B :=
  match p with
  | Fulfilled a => Fulfilled (f a)
  | Rejected e => Rejected e
  | Pending => Pending
  end.

(** The promise an [async] function returns when its body completes
    synchronously with [c]. *)
Definition async {A : Type} (c : completion A) : promise A :=
  match c with
  | Normal a => Fulfilled a
  | Throw e => Rejected e
  end.

(** ** ECMAScript [Map] with string keys *)

Module JsMap.
Section JsMap.
Context {V : Type}.

Definition empty : list (string * V) := [].

(** [m.get(k)]; [None] stands for [undefined]. *)
Fixpoint get (k : string) (m : list (string * V)) : option V :=
  match m with
  | [] => None
  | (k', v) :: m' => if decide (k' = k) then Some v else get k m'
  end.

(** [m.set(k, v)]: an existing key keeps its position and takes the new
    value, a new key is appended. *)
Fixpoint set (k : string) (v : V) (m : list (string * V)) : list (string * V) :=
  match m with
  | [] => [(k, v)]
  | (k', v') :: m' =>
      if decide (k' = k) then (k, v) :: m' else (k', v') :: set k v m'
  end.

(** [m.delete(k)]. *)
Definition delete (k : string) (m : list (string * V)) : list (string * V) :=
  filter (fun kv => kv.1 <> k) m.

(** [Array.from(m.keys())] and [Array.from(m.values())], as list contents. *)
Definition keys (m : list (string * V)) : list string := m.*1.
Definition values (m : list (string * V)) : list V := m.*2.
End JsMap.
End JsMap.

(** ** Data model *)

(** Modelled from the spec: [DebugConfiguration] is declared in
    "../common/debug-common"; it carries at least the [type] discriminator
    and the [name], followed by type-specific attributes. *)
Record DebugConfiguration : Type := {
  type : string;
  name : string;
  attributes : list (string * string);
}.

Module DebugModel.

(** Modelled from the spec: the interfaces below are declared in
    "./debug-model". The executable descriptor holds the command, its
    arguments and an environment. *)
Record DebugAdapterExecutable : Type := {
  command : string;
  args : list string;
  env : list (string * string);
}.

(** Modelled from the spec: a session exposes its [id], the configuration
    and executable it is bound to, [start()] (whose promise settles with
    the outcome of the transport handshake) and [stop()], a termination
    request that is recorded in the store (see [stop] below). *)
Record DebugAdapterSession : Type := {
  id : string;
  configuration : DebugConfiguration;
  executable : DebugAdapterExecutable;
  start : promise unit;
}.

(** Modelled from the spec: the factory contract
    [get(id, config, executable) -> Session]. *)
Record DebugAdapterSessionFactory : Type := {
  get : string -> DebugConfiguration -> DebugAdapterExecutable ->
        completion DebugAdapterSession;
}.

(** Modelled from the spec: a contribution for one debug type. The
    registry reads [provideDebugConfigurations] and
    [debugAdapterSessionFactory] as properties and calls the other two
    members. *)
Record DebugAdapterContribution : Type := {
  debugType : string;
  provideDebugConfigurations : list DebugConfiguration;
  resolveDebugConfiguration :
    DebugConfiguration -> completion DebugConfiguration;
  provideDebugAdapterExecutable :
    DebugConfiguration -> completion DebugAdapterExecutable;
  debugAdapterSessionFactory : option DebugAdapterSessionFactory;
}.

End DebugModel.
Import DebugModel.

(** ** The store *)

(** A call made on a session object. *)
Inductive TransportCall : Type :=
  | CallStart (session : DebugAdapterSession)
  | CallStop (session : DebugAdapterSession).

(** The mutable objects the three classes share: the manager's [sessions]
    map, the arrays allocated by [Array.from] (an array reference is its
    index in [arrays]) and the calls received by session objects, oldest
    first. *)
Record State : Type := {
  sessions : list (string * DebugAdapterSession);
  arrays : list (list DebugAdapterSession);
  transport : list TransportCall;
}.

Definition set_sessions
    (f : list (string * DebugAdapterSession) -> list (string * DebugAdapterSession))
    (st : State) : State :=
  {| sessions := f (sessions st); arrays := arrays st; transport := transport st |}.

Definition set_arrays
    (f : list (list DebugAdapterSession) -> list (list DebugAdapterSession))
    (st : State) : State :=
  {| sessions := sessions st; arrays := f (arrays st); transport := transport st |}.

Definition set_transport (f : list TransportCall -> list TransportCall)
    (st : State) : State :=
  {| sessions := sessions st; arrays := arrays st; transport := f (transport st) |}.

(** Method bodies: a store transformer that completes normally or throws.
    A throw keeps the store as it is at the point of the throw. *)
Definition M (A : Type) : Type := State -> completion A * State.

#[global] Instance M_ret : MRet M := fun A a st => (Normal a, st).

#[global] Instance M_bind : MBind M := fun A B f m st =>
  match m st with
  | (Normal a, st') => f a st'
  | (Throw e, st') => (Throw e, st')
  end.

(** A call whose outcome does not depend on the store. *)
Definition call {A : Type} (c : completion A) : M A := fun st => (c, st).

Definition modify (f : State -> State) : M unit := fun st => (Normal tt, f st).

Definition gets {A : Type} (f : State -> A) : M A := fun st => (Normal (f st), st).

(** [for (const x of xs) body(x)] and [xs.forEach(body)]. *)
Fixpoint forEach {A : Type} (body : A -> M unit) (xs : list A) : M unit :=
  match xs with
  | [] => mret tt
  | x :: xs' => body x ;; forEach body xs'
  end.

(** ** DebugAdapterContributionRegistry *)

Record DebugAdapterContributionRegistry : Type := {
  contribs : list (string * DebugAdapterContribution);
}.

Module Registry.

(** The constructor: every contribution of the provider, in the
    provider's order, is stored under its debug type. *)
Definition constructor (contributions : list DebugAdapterContribution)
    : DebugAdapterContributionRegistry :=
  {| contribs :=
       foldl (fun m contrib => JsMap.set (debugType contrib) contrib m)
             JsMap.empty contributions |}.

Definition debugTypes (self : DebugAdapterContributionRegistry) : list string :=
  JsMap.keys (contribs self).

(** [new Error(`Debug adapter '${debugType}' isn't registered.`)] *)
Definition notRegistered (debugType : string) : exn :=
  Error ("Debug adapter '" +:+ debugType +:+ "' isn't registered.").

Definition provideDebugConfigurations
    (self : DebugAdapterContributionRegistry) (debugType : string)
    : completion (list DebugConfiguration) :=
  match JsMap.get debugType (contribs self) with
  | Some contrib => Normal (DebugModel.provideDebugConfigurations contrib)
  | None => Throw (notRegistered debugType)
  end.

Definition resolveDebugConfiguration
    (self : DebugAdapterContributionRegistry) (config : DebugConfiguration)
    : completion DebugConfiguration :=
  match JsMap.get (type config) (contribs self) with
  | Some contrib => DebugModel.resolveDebugConfiguration contrib config
  | None => Throw (notRegistered (type config))
  end.

Definition provideDebugAdapterExecutable
    (self : DebugAdapterContributionRegistry) (config : DebugConfiguration)
    : completion DebugAdapterExecutable :=
  match JsMap.get (type config) (contribs self) with
  | Some contrib => DebugModel.provideDebugAdapterExecutable contrib config
  | None => Throw (notRegistered (type config))
  end.

(** Falling off the end of the body returns [undefined], here [None]. *)
Definition debugAdapterSessionFactory
    (self : DebugAdapterContributionRegistry) (debugType : string)
    : completion (option DebugAdapterSessionFactory) :=
  match JsMap.get debugType (contribs self) with
  | Some contrib => Normal (DebugModel.debugAdapterSessionFactory contrib)
  | None => Normal None
  end.

End Registry.

(** ** DebugAdapterSessionManager *)

(** The injected, read-only members; the [sessions] map is in the store. *)
Record DebugAdapterSessionManager : Type := {
  registry : DebugAdapterContributionRegistry;
  defaultFactory : DebugAdapterSessionFactory;
}.

Module SessionManager.

(** [create(config)]; [uuid4] is the value [UUID.uuid4()] returns in this
    call. *)
Definition create (self : DebugAdapterSessionManager) (uuid4 : string)
    (config : DebugConfiguration) : M DebugAdapterSession :=
  let sessionId := uuid4 in
  custom ← call (Registry.debugAdapterSessionFactory (registry self) (type config));
  let factory := default (defaultFactory self) custom in
  executable ← call (Registry.provideDebugAdapterExecutable (registry self) config);
  session ← call (get factory sessionId config executable);
  modify (set_sessions (JsMap.set sessionId session)) ;;
  mret session.

Definition remove (sessionId : string) : M unit :=
  modify (set_sessions (JsMap.delete sessionId)).

Definition find (sessionId : string) : M (option DebugAdapterSession) :=
  gets (fun st => JsMap.get sessionId (sessions st)).

(** [Array.from(this.sessions.values())]: a new array is allocated and
    its reference returned. *)
Definition findAll : M nat :=
  fun st =>
    (Normal (length (arrays st)),
     set_arrays (fun h => h ++ [JsMap.values (sessions st)]) st).

End SessionManager.

(** Reading the contents of an array, and replacing them (any in-place
    mutation: [push], [pop], [splice], index assignment, ...). *)
Definition readArray (ref : nat) (st : State) : option (list DebugAdapterSession) :=
  arrays st !! ref.

Definition mutateArray (ref : nat)
    (f : list DebugAdapterSession -> list DebugAdapterSession) : M unit :=
  modify (set_arrays (fun h => alter f ref h)).

(** ** DebugServiceImpl *)

(** The injected members; the logger is never used by the methods. *)
Record DebugServiceImpl : Type := {
  sessionManager : DebugAdapterSessionManager;
  serviceRegistry : DebugAdapterContributionRegistry;
}.

(** [session.start()] and [session.stop()] as seen from this layer: the
    call is recorded; [start()] hands back the session's promise. *)
Definition sessionStart (session : DebugAdapterSession) : M (promise unit) :=
  modify (set_transport (fun t => t ++ [CallStart session])) ;;
  mret (start session).

Definition sessionStop (session : DebugAdapterSession) : M unit :=
  modify (set_transport (fun t => t ++ [CallStop session])).

(** Truthiness of an optional string argument: [undefined] and the empty
    string are falsy. *)
Definition truthy (s : option string) : option string :=
  match s with
  | Some s' => if decide (s' = "") then None else Some s'
  | None => None
  end.

Module DebugService.

Definition debugTypes (self : DebugServiceImpl) : promise (list string) :=
  Fulfilled (Registry.debugTypes (serviceRegistry self)).

Definition provideDebugConfigurations (self : DebugServiceImpl)
    (debugType : string) : promise (list DebugConfiguration) :=
  async (Registry.provideDebugConfigurations (serviceRegistry self) debugType).

Definition resolveDebugConfiguration (self : DebugServiceImpl)
    (config : DebugConfiguration) : promise DebugConfiguration :=
  async (Registry.resolveDebugConfiguration (serviceRegistry self) config).

(** [start(config)]: the promise returned and the store once the
    method's own effects have taken place. *)
Definition start (self : DebugServiceImpl) (uuid4 : string)
    (config : DebugConfiguration) (st : State) : promise string * State :=
  match (session ← SessionManager.create (sessionManager self) uuid4 config;
         p ← sessionStart session;
         mret (then_ p (fun _ => id session))) st with
  | (Normal p, st') => (p, st')
  | (Throw e, st') => (Rejected e, st')
  end.

Definition dispose (self : DebugServiceImpl) (sessionId : option string)
    (st : State) : promise unit * State :=
  let body : M unit :=
    match truthy sessionId with
    | Some sessionId =>
        debugSession ← SessionManager.find sessionId;
        match debugSession with
        | Some debugSession => sessionStop debugSession
        | None => mret tt
        end
    | None =>
        ref ← SessionManager.findAll;
        snapshot ← gets (fun st => default [] (readArray ref st));
        forEach sessionStop snapshot
    end in
  let (c, st') := body st in (async c, st').

End DebugService.

(** ** Executions of the session manager *)

(** One observable call on the manager (or on an array it handed out),
    with what the call produced. *)
Inductive ManagerEvent : Type :=
  | Created (uuid4 : string) (config : DebugConfiguration)
            (outcome : completion DebugAdapterSession)
  | Removed (sessionId : string)
  | Found (sessionId : string) (result : option DebugAdapterSession)
  | Listed (ref : nat)
  | Mutated (ref : nat) (f : list DebugAdapterSession -> list DebugAdapterSession).

Inductive step (self : DebugAdapterSessionManager)
    : State -> ManagerEvent -> State -> Prop :=
  | step_create st uuid4 config outcome st' :
      SessionManager.create self uuid4 config st = (outcome, st') ->
      step self st (Created uuid4 config outcome) st'
  | step_remove st sessionId st' :
      SessionManager.remove sessionId st = (Normal tt, st') ->
      step self st (Removed sessionId) st'
  | step_find st sessionId result st' :
      SessionManager.find sessionId st = (Normal result, st') ->
      step self st (Found sessionId result) st'
  | step_findAll st ref st' :
      SessionManager.findAll st = (Normal ref, st') ->
      step self st (Listed ref) st'
  | step_mutate st ref f st' :
      mutateArray ref f st = (Normal tt, st') ->
      step self st (Mutated ref f) st'.

(** [execution self st0 events st]: starting in [st0], the calls of
    [events] happened in that order and left the store [st]. *)
Inductive execution (self : DebugAdapterSessionManager) (st0 : State)
    : list ManagerEvent -> State -> Prop :=
  | execution_nil : execution self st0 [] st0
  | execution_snoc events st event st' :
      execution self st0 events st ->
      step self st event st' ->
      execution self st0 (events ++ [event]) st'.

(** The session most recently created under [sessionId] and not removed
    since, read off the history of calls. *)
Definition alive (events : list ManagerEvent) (sessionId : string)
    : option DebugAdapterSession :=
  foldl (fun acc event =>
           match event with
           | Created uuid4 _ (Normal session) =>
               if decide (uuid4 = sessionId) then Some session else acc
           | Removed removed =>
               if decide (removed = sessionId) then None else acc
           | _ => acc
           end) None events.

(** A factory honours its contract when the session it builds carries the
    identifier it was given. *)
Definition bindsId (factory : DebugAdapterSessionFactory) : Prop :=
  forall sessionId config executable session,
    get factory sessionId config executable = Normal session ->
    id session = sessionId.

(** The factories a manager can select all honour the contract. *)
Definition factoriesBindId (self : DebugAdapterSessionManager) : Prop :=
  bindsId (defaultFactory self)
  /\ forall t contrib factory,
       JsMap.get t (contribs (registry self)) = Some contrib ->
       debugAdapterSessionFactory contrib = Some factory ->
       bindsId factory.

(** ** A mock adapter

    The contribution used by the examples: debug type "mock" with one
    template configuration, an identity resolution, a fixed executable and
    an optional custom session factory. *)
Module Mock.

Definition launch : DebugConfiguration :=
  {| type := "mock"; name := "Launch"; attributes := [] |}.

Definition unknown : DebugConfiguration :=
  {| type := "nonexistent"; name := "x"; attributes := [] |}.

Definition adapter : DebugAdapterExecutable :=
  {| command := "mock-adapter"; args := []; env := [] |}.

(** A factory whose sessions are bound to the identifier, configuration
    and executable they are given and whose handshake settles as
    [handshake]. *)
Definition factory (handshake : promise unit) : DebugAdapterSessionFactory :=
  {| get := fun sessionId config executable =>
              Normal {| id := sessionId; configuration := config;
                        executable := executable; start := handshake |} |}.

Definition contribution (custom : option DebugAdapterSessionFactory)
    : DebugAdapterContribution :=
  {| debugType := "mock";
     provideDebugConfigurations := [launch];
     resolveDebugConfiguration := Normal;
     provideDebugAdapterExecutable := fun _ => Normal adapter;
     debugAdapterSessionFactory := custom |}.

Definition manager (custom : option DebugAdapterSessionFactory)
    (handshake : promise unit) : DebugAdapterSessionManager :=
  {| registry := Registry.constructor [contribution custom];
     defaultFactory := factory handshake |}.

Definition service (custom : option DebugAdapterSessionFactory)
    (handshake : promise unit) : DebugServiceImpl :=
  {| sessionManager := manager custom handshake;
     serviceRegistry := Registry.constructor [contribution custom] |}.

(** A second contribution, for another debug type; it rejects every
    configuration. *)
Definition node : DebugAdapterContribution :=
  {| debugType := "node";
     provideDebugConfigurations := [];
     resolveDebugConfiguration := fun _ => Throw (Thrown "invalid");
     provideDebugAdapterExecutable := fun _ => Throw (Thrown "invalid");
     debugAdapterSessionFactory := None |}.

(** The store of a freshly constructed manager. *)
Definition initial : State :=
  {| sessions := JsMap.empty; arrays := []; transport := [] |}.

Definition refused : exn := Error "connection refused".

(** A factory that cannot build a session. *)
Definition failing : DebugAdapterSessionFactory :=
  {| get := fun _ _ _ => Throw refused |}.

(** The session the mock factory builds for [launch], and the store in
    which it is the only live session. *)
Definition session (handshake : promise unit) (sessionId : string)
    : DebugAdapterSession :=
  {| id := sessionId; configuration := launch; executable := adapter;
     start := handshake |}.

Definition running (handshake : promise unit) (sessionId : string) : State :=
  {| sessions := [(sessionId, session handshake sessionId)];
     arrays := []; transport := [] |}.

End Mock.

(** ** Cleanup statements examined below *)



(** ** Properties of [JsMap] *)

Module JsMapFacts.
Section JsMapFacts.
Context {V : Type}.
Implicit Types (k : string) (v : V) (m : list (string * V)).
Import JsMap.

Lemma get_set_eq k v m : get k (set k v m) = Some v.
Proof.
  induction m as [|[k' v'] m IH]; simpl.
  - by rewrite decide_True.
  - destruct (decide (k' = k)) as [->|Hne]; simpl.
    + by rewrite decide_True.
    + by rewrite decide_False.
Qed.

Lemma get_set_ne k k' v m : k <> k' -> get k' (set k v m) = get k' m.
Proof.
  intros Hne. induction m as [|[k0 v0] m IH]; simpl.
  - by rewrite decide_False.
  - destruct (decide (k0 = k)) as [->|Hne0]; simpl.
    + by rewrite !decide_False.
    + destruct (decide (k0 = k')); [done | apply IH].
Qed.

Lemma get_set k k' v m :
  get k' (set k v m) = if decide (k = k') then Some v else get k' m.
Proof.
  destruct (decide (k = k')) as [->|Hne];
    [apply get_set_eq | by apply get_set_ne].
Qed.

Lemma get_delete_eq k m : get k (delete k m) = None.
Proof.
  unfold delete. induction m as [|[k' v'] m IH]; [done|].
  rewrite filter_cons. simpl. destruct (decide (k' <> k)) as [Hne|Heq]; simpl.
  - by rewrite decide_False.
  - done.
Qed.

Lemma get_delete_ne k k' m : k <> k' -> get k' (delete k m) = get k' m.
Proof.
  intros Hne. unfold delete. induction m as [|[k0 v0] m IH]; [done|].
  rewrite filter_cons. simpl. destruct (decide (k0 <> k)) as [Hne0|Heq]; simpl.
  - by rewrite IH.
  - apply dec_stable in Heq as ->. by rewrite decide_False.
Qed.

Lemma get_delete k k' m :
  get k' (delete k m) = if decide (k = k') then None else get k' m.
Proof.
  destruct (decide (k = k')) as [->|Hne];
    [apply get_delete_eq | by apply get_delete_ne].
Qed.

Lemma get_None_keys k m : get k m = None <-> k ∉ keys m.
Proof.
  unfold keys. induction m as [|[k' v'] m IH]; simpl.
  - split; [intros _; apply not_elem_of_nil | done].
  - rewrite not_elem_of_cons. destruct (decide (k' = k)) as [->|Hne].
    + split; [done | by intros [? _]].
    + rewrite IH. split; [by intros ? | by intros [_ ?]].
Qed.

Lemma get_Some_elem_of k v m : get k m = Some v -> (k, v) ∈ m.
Proof.
  induction m as [|[k' v'] m IH]; simpl; [done|].
  destruct (decide (k' = k)) as [->|Hne].
  - intros [= ->]. apply elem_of_cons. by left.
  - intros H. apply elem_of_cons. right. by apply IH.
Qed.

Lemma get_Some_values k v m : get k m = Some v -> v ∈ values m.
Proof.
  intros H%get_Some_elem_of. unfold values.
  apply list_elem_of_fmap. by exists (k, v).
Qed.

Lemma delete_absent k m : get k m = None -> delete k m = m.
Proof.
  unfold delete. induction m as [|[k' v'] m IH]; simpl; [done|].
  destruct (decide (k' = k)) as [->|Hne]; [done|].
  intros H. rewrite filter_cons. simpl. rewrite decide_True by done.
  by rewrite IH.
Qed.

Lemma delete_delete k m : delete k (delete k m) = delete k m.
Proof. apply delete_absent, get_delete_eq. Qed.

Lemma keys_set_present k v m :
  is_Some (get k m) -> keys (set k v m) = keys m.
Proof.
  unfold keys. induction m as [|[k' v'] m IH]; simpl.
  - by intros [? ?].
  - destruct (decide (k' = k)) as [->|Hne]; simpl; [done|].
    intros H. f_equal. by apply IH.
Qed.

Lemma keys_set_absent k v m :
  get k m = None -> keys (set k v m) = keys m ++ [k].
Proof.
  unfold keys. induction m as [|[k' v'] m IH]; simpl; [done|].
  destruct (decide (k' = k)) as [->|Hne]; simpl; [done|].
  intros H. f_equal. by apply IH.
Qed.

Lemma NoDup_keys_set k v m : NoDup (keys m) -> NoDup (keys (set k v m)).
Proof.
  intros Hnd. destruct (get k m) as [v'|] eqn:Hget.
  - by rewrite keys_set_present.
  - rewrite keys_set_absent by done.
    apply NoDup_app. split_and!; [done | | apply NoDup_singleton].
    intros x Hx ->%list_elem_of_singleton. by apply get_None_keys in Hget.
Qed.
Lemma NoDup_keys_delete k m : NoDup (keys m) -> NoDup (keys (delete k m)).
Proof.
  intros Hnd. eapply sublist_NoDup; [done|].
  unfold keys, delete. apply fmap_sublist, sublist_filter.
Qed.

Lemma elem_of_get k v m : NoDup (keys m) -> (k, v) ∈ m -> get k m = Some v.
Proof.
  unfold keys. induction m as [|[k' v'] m IH]; simpl.
  - by intros _ ?%elem_of_nil.
  - intros [Hnotin Hnd]%NoDup_cons [[= <- <-]|Hin]%elem_of_cons.
    + by rewrite decide_True.
    + rewrite decide_False; [by apply IH|].
      intros ->. apply Hnotin, list_elem_of_fmap. by exists (k, v).
Qed.

Lemma elem_of_values v m :
  NoDup (keys m) -> v ∈ values m <-> exists k, get k m = Some v.
Proof.
  intros Hnd. split.
  - unfold values. intros [[k v'] [-> Hin]]%list_elem_of_fmap.
    exists k. by apply elem_of_get.
  - intros [k Hget]. by eapply get_Some_values.
Qed.
Lemma delete_set_absent k v m : get k m = None -> delete k (set k v m) = m.
Proof.
  unfold delete. induction m as [|[k' v'] m IH]; simpl.
  - intros _. by rewrite filter_cons, decide_False, filter_nil by (by intros ?).
  - destruct (decide (k' = k)) as [->|Hne]; [done|].
    intros H. rewrite filter_cons, decide_True by done. by rewrite IH.
Qed.

Lemma values_set_absent k v m :
  get k m = None -> values (set k v m) = values m ++ [v].
Proof.
  unfold values. induction m as [|[k' v'] m IH]; simpl; [done|].
  destruct (decide (k' = k)) as [->|Hne]; simpl; [done|].
  intros H. f_equal. by apply IH.
Qed.

Lemma length_set_present k v m :
  is_Some (get k m) -> length (set k v m) = length m.
Proof.
  induction m as [|[k' v'] m IH]; simpl.
  - by intros [? ?].
  - destruct (decide (k' = k)) as [->|Hne]; simpl; [done|].
    intros H. f_equal. by apply IH.
Qed.
Lemma set_absent k v m : get k m = None -> set k v m = m ++ [(k, v)].
Proof.
  induction m as [|[k' v'] m IH]; simpl; [done|].
  destruct (decide (k' = k)) as [->|Hne]; [done|].
  intros H. f_equal. by apply IH.
Qed.
End JsMapFacts.
End JsMapFacts.

(** ** Properties of the registry *)

Section RegistryFacts.
Implicit Types (self : DebugAdapterContributionRegistry) (t : string).

Lemma get_constructor contributions t :
  JsMap.get t (contribs (Registry.constructor contributions))
  = last (filter (fun contrib => debugType contrib = t) contributions).
Proof.
  unfold Registry.constructor. simpl.
  induction contributions as [|contrib contributions IH] using rev_ind.
  - done.
  - rewrite foldl_app, filter_app. simpl.
    rewrite JsMapFacts.get_set, IH, filter_cons, filter_nil.
    destruct (decide (debugType contrib = t)).
    + by rewrite last_snoc.
    + by rewrite app_nil_r.
Qed.

Lemma NoDup_debugTypes_constructor contributions :
  NoDup (Registry.debugTypes (Registry.constructor contributions)).
Proof.
  unfold Registry.debugTypes, Registry.constructor. simpl.
  induction contributions as [|contrib contributions IH] using rev_ind.
  - apply NoDup_nil_2.
  - rewrite foldl_app. simpl. by apply JsMapFacts.NoDup_keys_set.
Qed.

Lemma registered_get self t :
  t ∈ Registry.debugTypes self <-> is_Some (JsMap.get t (contribs self)).
Proof.
  unfold Registry.debugTypes. rewrite <- not_eq_None_Some, JsMapFacts.get_None_keys.
  split; [by intros ? ? | apply dec_stable].
Qed.

Lemma unregistered_get self t :
  t ∉ Registry.debugTypes self <-> JsMap.get t (contribs self) = None.
Proof. unfold Registry.debugTypes. by rewrite JsMapFacts.get_None_keys. Qed.

Lemma constructor_key contributions t contrib :
  JsMap.get t (contribs (Registry.constructor contributions)) = Some contrib ->
  contrib ∈ contributions /\ debugType contrib = t.
Proof.
  rewrite get_constructor. intros Hlast.
  assert (contrib ∈ filter (fun contrib => debugType contrib = t) contributions)
    as Hin.
  { apply last_Some in Hlast as [l' ->]. apply elem_of_app. right.
    apply list_elem_of_singleton. done. }
  by apply list_elem_of_filter in Hin as [? ?].
Qed.
End RegistryFacts.

Section RegistryTheorems.
Implicit Types (self : DebugAdapterContributionRegistry) (t : string).

Lemma filter_none {A : Type} (P : A -> Prop) `{!forall x, Decision (P x)}
    (l : list A) :
  (forall x, x ∈ l -> ~ P x) -> filter P l = [].
Proof.
  induction l as [|x l IH]; intros Hall; [done|].
  rewrite filter_cons, decide_False by (apply Hall; left).
  apply IH. intros y Hy. apply Hall. by right.
Qed.

(** C4: when several contributions of the provider share a debug type,
    the registry built by the constructor holds the one that comes last
    in the provider's order (a later one replaces an earlier one), and
    the built map has a single entry per debug type, so the choice is
    made when the registry is built and a lookup finds it settled. *)
Theorem constructor_last_registered_wins
    (contributions : list DebugAdapterContribution) :
  (forall t,
     JsMap.get t (contribs (Registry.constructor contributions))
     = last (filter (fun contrib => debugType contrib = t) contributions))
  /\ (forall earlier first between second later,
        contributions = earlier ++ first :: between ++ second :: later ->
        debugType first = debugType second ->
        (forall contrib, contrib ∈ later ->
                         debugType contrib <> debugType second) ->
        JsMap.get (debugType first)
                  (contribs (Registry.constructor contributions))
        = Some second)
  /\ NoDup (Registry.debugTypes (Registry.constructor contributions)).
Proof.
  split_and!.
  - intros t. apply get_constructor.
  - intros earlier first between second later -> Hsame Hlater.
    rewrite get_constructor, Hsame.
    replace (earlier ++ first :: between ++ second :: later)
      with ((earlier ++ first :: between) ++ second :: later)
      by (by rewrite <- app_assoc).
    rewrite filter_app, (filter_cons _ second), decide_True by done.
    rewrite (filter_none _ later) by done.
    apply last_snoc.
  - apply NoDup_debugTypes_constructor.
Qed.

Lemma constructor_last_registered_wins_witness :
  JsMap.get "mock"
    (contribs (Registry.constructor
                 [Mock.contribution None;
                  Mock.contribution (Some (Mock.factory Pending))]))
  = Some (Mock.contribution (Some (Mock.factory Pending))).
Proof.
  apply (proj1 (proj2 (constructor_last_registered_wins
                         [Mock.contribution None;
                          Mock.contribution (Some (Mock.factory Pending))]))
               [] (Mock.contribution None) []
               (Mock.contribution (Some (Mock.factory Pending))) []).
  - reflexivity.
  - reflexivity.
  - by intros contrib ?%elem_of_nil.
Defined.

(** C6: for a debug type [t] that is not registered,
    [provideDebugConfigurations(t)], [resolveDebugConfiguration(config)]
    and [provideDebugAdapterExecutable(config)] with [config.type = t]
    each throw the "isn't registered" error; for a registered type each
    of them is the answer of the contributor stored under [t], whatever
    that answer is (a value or the contributor's own throw). *)
Theorem unknown_type_iff_unregistered self t (config : DebugConfiguration) :
  type config = t ->
  if decide (t ∈ Registry.debugTypes self) then
    exists contrib,
      JsMap.get t (contribs self) = Some contrib
      /\ Registry.provideDebugConfigurations self t
         = Normal (provideDebugConfigurations contrib)
      /\ Registry.resolveDebugConfiguration self config
         = resolveDebugConfiguration contrib config
      /\ Registry.provideDebugAdapterExecutable self config
         = provideDebugAdapterExecutable contrib config
  else
    Registry.provideDebugConfigurations self t
    = Throw (Registry.notRegistered t)
    /\ Registry.resolveDebugConfiguration self config
       = Throw (Registry.notRegistered t)
    /\ Registry.provideDebugAdapterExecutable self config
       = Throw (Registry.notRegistered t).
Proof.
  intros <-. unfold Registry.provideDebugConfigurations,
    Registry.resolveDebugConfiguration, Registry.provideDebugAdapterExecutable.
  destruct (decide _) as [Hreg|Hunreg].
  - apply registered_get in Hreg as [contrib Hget].
    exists contrib. by rewrite Hget.
  - apply unregistered_get in Hunreg. by rewrite Hunreg.
Qed.

Lemma unknown_type_iff_unregistered_witness :
  Registry.resolveDebugConfiguration
    (Registry.constructor [Mock.contribution None]) Mock.unknown
  = Throw (Error "Debug adapter 'nonexistent' isn't registered.").
Proof.
  pose proof (unknown_type_iff_unregistered
                (Registry.constructor [Mock.contribution None])
                "nonexistent" Mock.unknown eq_refl) as H.
  rewrite decide_False in H by (vm_compute; by intros ?%list_elem_of_singleton).
  exact (proj1 (proj2 H)).
Defined.

(** C10: [debugAdapterSessionFactory] completes normally for every debug
    type; for an unregistered type it returns [undefined], the same
    result as for a registered contributor that declares no custom
    factory. *)
Theorem debugAdapterSessionFactory_never_throws self t :
  (exists result, Registry.debugAdapterSessionFactory self t = Normal result)
  /\ (if decide (t ∈ Registry.debugTypes self) then
        exists contrib,
          JsMap.get t (contribs self) = Some contrib
          /\ Registry.debugAdapterSessionFactory self t
             = Normal (debugAdapterSessionFactory contrib)
      else Registry.debugAdapterSessionFactory self t = Normal None)
  /\ (forall contrib,
        JsMap.get t (contribs self) = Some contrib ->
        debugAdapterSessionFactory contrib = None ->
        Registry.debugAdapterSessionFactory self t = Normal None).
Proof.
  unfold Registry.debugAdapterSessionFactory. split_and!.
  - destruct (JsMap.get t (contribs self)); eauto.
  - destruct (decide _) as [Hreg|Hunreg].
    + apply registered_get in Hreg as [contrib Hget].
      exists contrib. by rewrite Hget.
    + apply unregistered_get in Hunreg. by rewrite Hunreg.
  - intros contrib -> Hnone. by rewrite Hnone.
Qed.

Lemma debugAdapterSessionFactory_never_throws_witness :
  Registry.debugAdapterSessionFactory
    (Registry.constructor [Mock.contribution None]) "mock" = Normal None
  /\ Registry.debugAdapterSessionFactory
       (Registry.constructor [Mock.contribution None]) "nonexistent"
     = Normal None.
Proof.
  split.
  - apply (proj2 (proj2 (debugAdapterSessionFactory_never_throws
                           (Registry.constructor [Mock.contribution None])
                           "mock")) (Mock.contribution None));
      reflexivity.
  - exact (proj1 (proj2 (debugAdapterSessionFactory_never_throws
                           (Registry.constructor [Mock.contribution None])
                           "nonexistent"))).
Defined.
End RegistryTheorems.

(** ** Properties of the session manager *)

Section ManagerFacts.
Implicit Types (self : DebugAdapterSessionManager) (st : State).

Lemma create_unfold self uuid4 config st :
  SessionManager.create self uuid4 config st =
  match Registry.provideDebugAdapterExecutable (registry self) config with
  | Throw e => (Throw e, st)
  | Normal executable =>
      let custom :=
        match JsMap.get (type config) (contribs (registry self)) with
        | Some contrib => debugAdapterSessionFactory contrib
        | None => None
        end in
      match get (default (defaultFactory self) custom)
                uuid4 config executable with
      | Throw e => (Throw e, st)
      | Normal session =>
          (Normal session, set_sessions (JsMap.set uuid4 session) st)
      end
  end.
Proof.
  unfold SessionManager.create, Registry.debugAdapterSessionFactory.
  unfold mbind, M_bind, mret, M_ret, call, modify. simpl.
  destruct (JsMap.get (type config) (contribs (registry self)));
    destruct (Registry.provideDebugAdapterExecutable (registry self) config);
    simpl; try done; by destruct (get _ uuid4 config _).
Qed.

Lemma create_inv self uuid4 config st outcome st' :
  SessionManager.create self uuid4 config st = (outcome, st') ->
  (exists session,
      outcome = Normal session
      /\ st' = set_sessions (JsMap.set uuid4 session) st)
  \/ (exists e, outcome = Throw e /\ st' = st).
Proof.
  rewrite create_unfold.
  destruct (Registry.provideDebugAdapterExecutable _ _); simpl;
    [destruct (get _ _ _ _)|]; intros [= <- <-]; eauto.
Qed.

Lemma step_sessions self st event st' :
  step self st event st' ->
  sessions st' =
  match event with
  | Created uuid4 _ (Normal session) => JsMap.set uuid4 session (sessions st)
  | Removed sessionId => JsMap.delete sessionId (sessions st)
  | _ => sessions st
  end.
Proof.
  destruct 1 as [st uuid4 config outcome st' H|st i st' H|st i r st' H
                |st ref st' H|st ref f st' H].
  - apply create_inv in H as [(session & -> & ->)|(e & -> & ->)]; done.
  - by injection H as <-.
  - by injection H as <- <-.
  - by injection H as <- <-.
  - by injection H as <-.
Qed.

Lemma step_arrays self st event st' ref contents :
  step self st event st' ->
  (forall f, event <> Mutated ref f) ->
  readArray ref st = Some contents ->
  readArray ref st' = Some contents.
Proof.
  unfold readArray.
  destruct 1 as [st uuid4 config outcome st' H|st i st' H|st i r st' H
                |st ref' st' H|st ref' f st' H]; intros Hne Hread.
  - apply create_inv in H as [(session & -> & ->)|(e & -> & ->)]; done.
  - by injection H as <-.
  - by injection H as <- <-.
  - injection H as <- <-. simpl.
    rewrite lookup_app_l; [done | by eapply lookup_lt_Some].
  - injection H as <-. simpl.
    rewrite list_lookup_alter_ne; [done|]. intros ->. by eapply Hne.
Qed.

Lemma alive_snoc events event sessionId :
  alive (events ++ [event]) sessionId =
  match event with
  | Created uuid4 _ (Normal session) =>
      if decide (uuid4 = sessionId) then Some session
      else alive events sessionId
  | Removed removed =>
      if decide (removed = sessionId) then None else alive events sessionId
  | _ => alive events sessionId
  end.
Proof. unfold alive. by rewrite foldl_app. Qed.

Lemma execution_alive self st0 events st :
  sessions st0 = JsMap.empty ->
  execution self st0 events st ->
  forall sessionId, JsMap.get sessionId (sessions st) = alive events sessionId.
Proof.
  intros Hempty. induction 1 as [|events st event st' _ IH Hstep];
    intros sessionId.
  - by rewrite Hempty.
  - rewrite alive_snoc, (step_sessions _ _ _ _ Hstep).
    destruct event as [uuid4 config [session|e]|removed| | |]; try apply IH.
    + by rewrite JsMapFacts.get_set, IH.
    + by rewrite JsMapFacts.get_delete, IH.
Qed.

Lemma execution_NoDup self st0 events st :
  NoDup (JsMap.keys (sessions st0)) ->
  execution self st0 events st ->
  NoDup (JsMap.keys (sessions st)).
Proof.
  intros Hnd. induction 1 as [|events st event st' _ IH Hstep]; [done|].
  rewrite (step_sessions _ _ _ _ Hstep).
  destruct event as [uuid4 config [session|e]|removed| | |]; try apply IH.
  - by apply JsMapFacts.NoDup_keys_set.
  - by apply JsMapFacts.NoDup_keys_delete.
Qed.

Lemma execution_array self st0 events st ref contents :
  readArray ref st0 = Some contents ->
  execution self st0 events st ->
  (forall f, Mutated ref f ∉ events) ->
  readArray ref st = Some contents.
Proof.
  intros Hread. induction 1 as [|events st event st' _ IH Hstep];
    intros Hne; [done|].
  eapply step_arrays; [done | |].
  - intros f ->. apply (Hne f), elem_of_app. right. by left.
  - apply IH. intros f Hin. apply (Hne f), elem_of_app. by left.
Qed.
End ManagerFacts.

Section ManagerTheorems.
Implicit Types (self : DebugAdapterSessionManager) (st : State).

(** C2: for a configuration whose type has no registered contributor,
    [create] throws the very error the registry throws from
    [provideDebugAdapterExecutable] (the "isn't registered" error) and
    the store, hence the live-session map, is exactly as before the
    call: nothing is inserted. *)
Theorem create_unknown_type self uuid4 (config : DebugConfiguration) st :
  type config ∉ Registry.debugTypes (registry self) ->
  Registry.provideDebugAdapterExecutable (registry self) config
  = Throw (Registry.notRegistered (type config))
  /\ SessionManager.create self uuid4 config st
     = (Throw (Registry.notRegistered (type config)), st)
  /\ sessions (SessionManager.create self uuid4 config st).2 = sessions st.
Proof.
  intros Hunreg%unregistered_get.
  assert (Registry.provideDebugAdapterExecutable (registry self) config
          = Throw (Registry.notRegistered (type config))) as Hexe.
  { unfold Registry.provideDebugAdapterExecutable. by rewrite Hunreg. }
  by rewrite create_unfold, Hexe.
Qed.

Lemma create_unknown_type_witness :
  SessionManager.create (Mock.manager None (Fulfilled tt)) "4f2a"
                        Mock.unknown Mock.initial
  = (Throw (Error "Debug adapter 'nonexistent' isn't registered."),
     Mock.initial).
Proof.
  apply (create_unknown_type (Mock.manager None (Fulfilled tt)) "4f2a"
                             Mock.unknown Mock.initial).
  vm_compute. by intros ?%list_elem_of_singleton.
Defined.

(** C3: when [create] returns a session for a configuration of a
    registered type, the session is already in the live map under the
    generated identifier: [find] with that identifier returns it and
    [findAll] lists it; when the factories honour their contract the
    generated identifier is the session's own [id], so [find(s.id)]
    returns [s]. On every execution of a manager that starts with an
    empty map, the identifiers in the map, after this call as well, are
    exactly those whose latest event is a successful [create] with no
    [remove] since, and the sessions [findAll] lists are exactly those
    sessions. *)
Theorem create_inserts_before_returning
    self uuid4 (config : DebugConfiguration) st session st' :
  type config ∈ Registry.debugTypes (registry self) ->
  SessionManager.create self uuid4 config st = (Normal session, st') ->
  SessionManager.find uuid4 st' = (Normal (Some session), st')
  /\ (exists ref st'',
        SessionManager.findAll st' = (Normal ref, st'')
        /\ exists listed, readArray ref st'' = Some listed /\ session ∈ listed)
  /\ (factoriesBindId self ->
      id session = uuid4
      /\ SessionManager.find (id session) st' = (Normal (Some session), st'))
  /\ (forall st0 events,
        sessions st0 = JsMap.empty ->
        execution self st0 events st ->
        let events' := events ++ [Created uuid4 config (Normal session)] in
        (forall sessionId,
           JsMap.get sessionId (sessions st') = alive events' sessionId)
        /\ (forall s, s ∈ JsMap.values (sessions st')
                      <-> exists sessionId, alive events' sessionId = Some s)).
Proof.
  intros Hreg Hcreate.
  assert (JsMap.get uuid4 (sessions st') = Some session) as Hget.
  { apply create_inv in Hcreate as [(? & [= <-] & ->)|(? & [=] & _)].
    simpl. apply JsMapFacts.get_set_eq. }
  split_and!.
  - unfold SessionManager.find, gets. by rewrite Hget.
  - eexists _, _. split; [reflexivity|].
    exists (JsMap.values (sessions st')). split.
    + unfold readArray. simpl. by apply list_lookup_middle.
    + by eapply JsMapFacts.get_Some_values.
  - intros [Hdefault Hcustom].
    assert (id session = uuid4) as Hid.
    { rewrite create_unfold in Hcreate.
      destruct (Registry.provideDebugAdapterExecutable _ _) as [exe|];
        [|done]. simpl in Hcreate.
      destruct (get _ uuid4 config exe) as [s|] eqn:Hfactory; [|done].
      injection Hcreate as <- _.
      destruct (JsMap.get (type config) (contribs (registry self)))
        as [contrib|] eqn:Hcontrib; [|by eapply Hdefault].
      destruct (debugAdapterSessionFactory contrib) as [factory|] eqn:Hf;
        [by eapply (Hcustom _ _ _ Hcontrib Hf) | by eapply Hdefault]. }
    split; [done|]. rewrite Hid.
    unfold SessionManager.find, gets. by rewrite Hget.
  - intros st0 events Hempty Hexec events'.
    assert (execution self st0 events' st') as Hexec'.
    { eapply execution_snoc; [done | by constructor]. }
    split.
    + by eapply execution_alive.
    + intros s. rewrite JsMapFacts.elem_of_values.
      * by setoid_rewrite (execution_alive _ _ _ _ Hempty Hexec').
      * eapply execution_NoDup; [|done]. rewrite Hempty. apply NoDup_nil_2.
Qed.

Lemma create_inserts_before_returning_witness :
  id (Mock.session (Fulfilled tt) "4f2a") = "4f2a"
  /\ SessionManager.find (id (Mock.session (Fulfilled tt) "4f2a"))
                         (Mock.running (Fulfilled tt) "4f2a")
     = (Normal (Some (Mock.session (Fulfilled tt) "4f2a")),
        Mock.running (Fulfilled tt) "4f2a")
  /\ JsMap.get "4f2a" (sessions (Mock.running (Fulfilled tt) "4f2a"))
     = alive [Created "4f2a" Mock.launch
                      (Normal (Mock.session (Fulfilled tt) "4f2a"))] "4f2a".
Proof.
  destruct (create_inserts_before_returning
              (Mock.manager None (Fulfilled tt)) "4f2a" Mock.launch
              Mock.initial (Mock.session (Fulfilled tt) "4f2a")
              (Mock.running (Fulfilled tt) "4f2a"))
    as (_ & _ & Hbind & Htrace).
  - vm_compute. by left.
  - reflexivity.
  - destruct Hbind as [Hid Hfind].
    + split; [by intros ? ? ? ? [= <-] |].
      intros t contrib factory Hget Hf. cbn in Hget.
      case_decide; [by injection Hget as <- | done].
    + split_and!; [exact Hid | exact Hfind |].
      exact (proj1 (Htrace Mock.initial [] eq_refl
                           (execution_nil _ _)) "4f2a").
Defined.

(** C5: for a configuration whose type has a registered contributor,
    [create] builds the session with the contributor's custom factory
    when the contributor declares one and with the manager's default
    factory otherwise: its outcome is that factory's [get] on the
    generated identifier, the configuration and the executable the
    contributor provides, and the session is stored when [get] returns
    one. *)
Theorem create_selects_factory
    self uuid4 (config : DebugConfiguration) contrib st :
  JsMap.get (type config) (contribs (registry self)) = Some contrib ->
  let factory :=
    match debugAdapterSessionFactory contrib with
    | Some custom => custom
    | None => defaultFactory self
    end in
  SessionManager.create self uuid4 config st =
  match provideDebugAdapterExecutable contrib config with
  | Throw e => (Throw e, st)
  | Normal executable =>
      match get factory uuid4 config executable with
      | Throw e => (Throw e, st)
      | Normal session =>
          (Normal session, set_sessions (JsMap.set uuid4 session) st)
      end
  end.
Proof.
  intros Hget factory. rewrite create_unfold.
  unfold Registry.provideDebugAdapterExecutable. rewrite Hget.
  destruct (provideDebugAdapterExecutable contrib config); [|done].
  simpl. subst factory. by destruct (debugAdapterSessionFactory contrib).
Qed.

Lemma create_selects_factory_witness :
  (SessionManager.create
     (Mock.manager (Some (Mock.factory Pending)) (Fulfilled tt)) "4f2a"
     Mock.launch Mock.initial).1
  = get (Mock.factory Pending) "4f2a" Mock.launch Mock.adapter
  /\ (SessionManager.create (Mock.manager None (Fulfilled tt)) "4f2a"
                            Mock.launch Mock.initial).1
     = get (Mock.factory (Fulfilled tt)) "4f2a" Mock.launch Mock.adapter.
Proof.
  split.
  - by rewrite (create_selects_factory
                  (Mock.manager (Some (Mock.factory Pending)) (Fulfilled tt))
                  "4f2a" Mock.launch
                  (Mock.contribution (Some (Mock.factory Pending)))
                  Mock.initial eq_refl).
  - by rewrite (create_selects_factory
                  (Mock.manager None (Fulfilled tt)) "4f2a" Mock.launch
                  (Mock.contribution None) Mock.initial eq_refl).
Defined.

(** C7: [remove] never throws; removing an identifier that is not in
    the live map leaves the store unchanged; and a second [remove] of
    the same identifier leaves the store as the first one left it. *)
Theorem remove_idempotent (sessionId : string) st :
  (exists st', SessionManager.remove sessionId st = (Normal tt, st'))
  /\ (JsMap.get sessionId (sessions st) = None ->
      SessionManager.remove sessionId st = (Normal tt, st))
  /\ SessionManager.remove sessionId (SessionManager.remove sessionId st).2
     = (Normal tt, (SessionManager.remove sessionId st).2).
Proof.
  unfold SessionManager.remove, modify, set_sessions. split_and!.
  - eauto.
  - intros Habsent. rewrite JsMapFacts.delete_absent by done. by destruct st.
  - simpl. by rewrite JsMapFacts.delete_delete.
Qed.

Lemma remove_idempotent_witness :
  SessionManager.remove "4f2a" Mock.initial = (Normal tt, Mock.initial).
Proof.
  apply (proj1 (proj2 (remove_idempotent "4f2a" Mock.initial))).
  reflexivity.
Defined.

(** C9: [findAll] returns a newly allocated array holding the values of
    the live map at the call. No earlier array has its reference; the
    map is untouched by the call; whatever is later done to the manager
    ([create], [remove], [find], [findAll]) or to other arrays, the
    contents of the returned array stay the same; and mutating the
    returned array changes neither the map nor any other array. *)
Theorem findAll_defensive_copy self st ref st1 :
  SessionManager.findAll st = (Normal ref, st1) ->
  readArray ref st = None
  /\ readArray ref st1 = Some (JsMap.values (sessions st))
  /\ sessions st1 = sessions st
  /\ (forall events st2,
        execution self st1 events st2 ->
        (forall f, Mutated ref f ∉ events) ->
        readArray ref st2 = Some (JsMap.values (sessions st)))
  /\ (forall f st2,
        mutateArray ref f st1 = (Normal tt, st2) ->
        sessions st2 = sessions st
        /\ readArray ref st2 = Some (f (JsMap.values (sessions st)))
        /\ forall ref', ref' <> ref -> readArray ref' st2 = readArray ref' st1).
Proof.
  intros [= <- <-].
  assert (readArray (length (arrays st))
            (set_arrays (fun h => h ++ [JsMap.values (sessions st)]) st)
          = Some (JsMap.values (sessions st))) as Hread.
  { unfold readArray. simpl. by apply list_lookup_middle. }
  split_and!.
  - unfold readArray. by apply lookup_ge_None.
  - done.
  - done.
  - intros events st2 Hexec Hne. by eapply execution_array.
  - intros f st2 [= <-]. unfold readArray in *. simpl in *. split_and!.
    + done.
    + by rewrite list_lookup_alter_eq, Hread.
    + intros ref' Hne. by rewrite list_lookup_alter_ne.
Qed.

Lemma findAll_defensive_copy_witness :
  readArray 0
    (SessionManager.remove "4f2a"
       (SessionManager.findAll
          (SessionManager.create (Mock.manager None (Fulfilled tt)) "4f2a"
                                 Mock.launch Mock.initial).2).2).2
  = Some [Mock.session (Fulfilled tt) "4f2a"].
Proof.
  refine (proj1 (proj2 (proj2 (proj2
            (findAll_defensive_copy (Mock.manager None (Fulfilled tt))
               (SessionManager.create (Mock.manager None (Fulfilled tt))
                  "4f2a" Mock.launch Mock.initial).2
               0 _ eq_refl))))
            [Removed "4f2a"] _ _ _).
  - eapply (execution_snoc _ _ [] _ (Removed "4f2a"));
      [apply execution_nil | by constructor].
  - intros f [[=]|[]%elem_of_nil]%elem_of_cons.
Defined.
End ManagerTheorems.

(** ** Properties of the debug service *)

Section ServiceTheorems.
Implicit Types (self : DebugServiceImpl) (st : State).

Lemma start_unfold self uuid4 config st :
  DebugService.start self uuid4 config st =
  match SessionManager.create (sessionManager self) uuid4 config st with
  | (Normal session, st') =>
      (then_ (start session) (fun _ => id session),
       set_transport (fun t => t ++ [CallStart session]) st')
  | (Throw e, st') => (Rejected e, st')
  end.
Proof.
  unfold DebugService.start, sessionStart, mbind, M_bind, mret, M_ret, modify.
  by destruct (SessionManager.create _ _ _ _) as [[session|e] st'].
Qed.

Lemma forEach_sessionStop (snapshot : list DebugAdapterSession) st :
  forEach sessionStop snapshot st =
  (Normal tt, set_transport (fun t => t ++ (CallStop <$> snapshot)) st).
Proof.
  revert st. induction snapshot as [|session snapshot IH]; intros st.
  - unfold set_transport. simpl. rewrite app_nil_r. by destruct st.
  - simpl. unfold mbind, M_bind, sessionStop, modify at 1.
    rewrite IH. unfold set_transport. simpl.
    by rewrite <- app_assoc.
Qed.

Lemma dispose_unfold self sessionId st :
  DebugService.dispose self sessionId st =
  match truthy sessionId with
  | Some sessionId =>
      match JsMap.get sessionId (sessions st) with
      | Some debugSession =>
          (Fulfilled tt,
           set_transport (fun t => t ++ [CallStop debugSession]) st)
      | None => (Fulfilled tt, st)
      end
  | None =>
      (Fulfilled tt,
       set_transport
         (fun t => t ++ (CallStop <$> JsMap.values (sessions st)))
         (set_arrays (fun h => h ++ [JsMap.values (sessions st)]) st))
  end.
Proof.
  unfold DebugService.dispose.
  destruct (truthy sessionId) as [i|].
  - unfold SessionManager.find, gets, mbind, M_bind.
    by destruct (JsMap.get i (sessions st)).
  - unfold SessionManager.findAll, gets, mbind, M_bind, readArray. simpl.
    rewrite list_lookup_middle by done. simpl.
    by rewrite forEach_sessionStop.
Qed.






End ServiceTheorems.


(** ** Further properties of the registry *)

Section RegistryListing.
Implicit Types (self : DebugAdapterContributionRegistry) (t : string).

Lemma debugTypes_snoc contributions contrib :
  Registry.debugTypes (Registry.constructor (contributions ++ [contrib]))
  = if decide (debugType contrib
               ∈ Registry.debugTypes (Registry.constructor contributions))
    then Registry.debugTypes (Registry.constructor contributions)
    else Registry.debugTypes (Registry.constructor contributions)
         ++ [debugType contrib].
Proof.
  unfold Registry.debugTypes, Registry.constructor. simpl.
  rewrite foldl_app. simpl.
  destruct (decide _) as [Hin|Hnotin].
  - apply JsMapFacts.keys_set_present.
    rewrite <- not_eq_None_Some, JsMapFacts.get_None_keys. by intros ?.
  - by apply JsMapFacts.keys_set_absent, JsMapFacts.get_None_keys.
Qed.

Lemma elem_of_debugTypes_constructor contributions t :
  t ∈ Registry.debugTypes (Registry.constructor contributions)
  <-> t ∈ debugType <$> contributions.
Proof.
  induction contributions as [|contrib contributions IH] using rev_ind.
  - done.
  - rewrite debugTypes_snoc, fmap_app, elem_of_app. simpl.
    rewrite list_elem_of_singleton.
    destruct (decide _) as [Hin|Hnotin].
    + rewrite IH. split; [by left|]. intros [?| ->]; [done | by apply IH].
    + by rewrite elem_of_app, list_elem_of_singleton, IH.
Qed.

(** X1: [debugTypes()] of a registry built from the provider's contributions
    lists exactly the debug types that occur among them, each one once,
    in the order in which the types first occur: a later contribution
    under a type already seen does not move or repeat the type. *)
Theorem debugTypes_first_registration_order
    (contributions : list DebugAdapterContribution) :
  (forall t,
     t ∈ Registry.debugTypes (Registry.constructor contributions)
     <-> exists contrib, contrib ∈ contributions /\ debugType contrib = t)
  /\ Registry.debugTypes (Registry.constructor contributions)
     = reverse (remove_dups (reverse (debugType <$> contributions))).
Proof.
  split.
  - intros t. rewrite elem_of_debugTypes_constructor, list_elem_of_fmap.
    split; intros (contrib & ? & ?); by exists contrib.
  - induction contributions as [|contrib contributions IH] using rev_ind.
    + done.
    + rewrite debugTypes_snoc, fmap_app. cbn [fmap list_fmap].
      rewrite reverse_snoc. cbn [remove_dups]. unfold decide_rel.
      destruct (decide (debugType contrib ∈ _)) as [Hin|Hnotin];
        destruct (list_elem_of_dec _ _) as [Hin'|Hnotin'].
      * done.
      * exfalso. apply Hnotin'.
        by apply elem_of_reverse, elem_of_debugTypes_constructor.
      * exfalso. apply Hnotin.
        by apply elem_of_debugTypes_constructor, elem_of_reverse.
      * by rewrite reverse_cons, IH.
Qed.

(** X2: on a registry built from the provider's contributions,
    [resolveDebugConfiguration] and [provideDebugAdapterExecutable] for a
    configuration of a registered type are answered by one and the same
    contribution, which comes from the provider and whose [debugType] is
    the configuration's [type]. *)
Theorem constructor_routes_by_type
    (contributions : list DebugAdapterContribution)
    (config : DebugConfiguration) :
  type config ∈ Registry.debugTypes (Registry.constructor contributions) ->
  exists contrib,
    contrib ∈ contributions
    /\ debugType contrib = type config
    /\ Registry.resolveDebugConfiguration
         (Registry.constructor contributions) config
       = resolveDebugConfiguration contrib config
    /\ Registry.provideDebugAdapterExecutable
         (Registry.constructor contributions) config
       = provideDebugAdapterExecutable contrib config.
Proof.
  intros [contrib Hget]%registered_get.
  destruct (constructor_key _ _ _ Hget) as [Hin Htype].
  exists contrib.
  unfold Registry.resolveDebugConfiguration,
    Registry.provideDebugAdapterExecutable.
  by rewrite Hget.
Qed.

Lemma constructor_routes_by_type_witness :
  exists contrib,
    debugType contrib = "mock"
    /\ Registry.resolveDebugConfiguration
         (Registry.constructor [Mock.contribution None]) Mock.launch
       = resolveDebugConfiguration contrib Mock.launch.
Proof.
  destruct (constructor_routes_by_type [Mock.contribution None] Mock.launch)
    as (contrib & _ & Htype & Hresolve & _).
  - vm_compute. by left.
  - by exists contrib.
Defined.

Lemma filter_by_key_NoDup {A : Type} (f : A -> string) (l : list A) t :
  NoDup (f <$> l) -> length (filter (fun x => f x = t) l) <= 1.
Proof.
  induction l as [|x l IH]; simpl; [by intros; lia|].
  intros [Hnotin Hnd]%NoDup_cons. rewrite filter_cons.
  destruct (decide (f x = t)) as [<-|Hne]; [|by apply IH].
  rewrite (filter_none _ l); [simpl; lia|].
  intros y Hy Hfy. apply Hnotin, list_elem_of_fmap. by exists y.
Qed.

(** X3: when every debug type is contributed once, the provider's order does
    not matter for lookups: two providers offering the same contributions
    in different orders give registries whose four lookups agree. *)
Theorem lookup_independent_of_order
    (contributions contributions' : list DebugAdapterContribution)
    t (config : DebugConfiguration) :
  NoDup (debugType <$> contributions) ->
  contributions ≡ₚ contributions' ->
  Registry.provideDebugConfigurations (Registry.constructor contributions) t
  = Registry.provideDebugConfigurations (Registry.constructor contributions') t
  /\ Registry.resolveDebugConfiguration
       (Registry.constructor contributions) config
     = Registry.resolveDebugConfiguration
         (Registry.constructor contributions') config
  /\ Registry.provideDebugAdapterExecutable
       (Registry.constructor contributions) config
     = Registry.provideDebugAdapterExecutable
         (Registry.constructor contributions') config
  /\ Registry.debugAdapterSessionFactory (Registry.constructor contributions) t
     = Registry.debugAdapterSessionFactory
         (Registry.constructor contributions') t.
Proof.
  intros Hnd Hperm.
  assert (forall t',
            JsMap.get t' (contribs (Registry.constructor contributions))
            = JsMap.get t' (contribs (Registry.constructor contributions')))
    as Hget.
  { intros t'. rewrite !get_constructor.
    pose proof (filter_by_key_NoDup debugType contributions t' Hnd) as Hlen.
    pose proof (filter_Permutation
                  (fun contrib => debugType contrib = t') _ _ Hperm) as Hf.
    destruct (filter _ contributions) as [|x [|y l]]; simpl in Hlen; [| |lia].
    - by apply Permutation_nil in Hf as ->.
    - by apply Permutation_length_1_inv in Hf as ->. }
  unfold Registry.provideDebugConfigurations,
    Registry.resolveDebugConfiguration,
    Registry.provideDebugAdapterExecutable,
    Registry.debugAdapterSessionFactory.
  by rewrite !Hget.
Qed.

Lemma lookup_independent_of_order_witness :
  Registry.resolveDebugConfiguration
    (Registry.constructor [Mock.contribution None; Mock.node]) Mock.launch
  = Registry.resolveDebugConfiguration
      (Registry.constructor [Mock.node; Mock.contribution None]) Mock.launch.
Proof.
  apply (lookup_independent_of_order
           [Mock.contribution None; Mock.node]
           [Mock.node; Mock.contribution None] "mock" Mock.launch).
  - apply NoDup_cons. split; [|apply NoDup_singleton].
    by intros [=]%list_elem_of_singleton.
  - apply perm_swap.
Defined.
End RegistryListing.

(** ** Further properties of the session manager *)

Section ManagerBookkeeping.
Implicit Types (self : DebugAdapterSessionManager) (st : State).

(** X4: when [create] throws, whatever the cause, the store is exactly as
    before the call: nothing is inserted for a session that was not
    built. The error is either the one the registry's
    [provideDebugAdapterExecutable] threw, or, when the contributor
    registered under the configuration's type provided an executable,
    the one thrown by [get] of the factory [create] selects (that
    contributor's custom factory if it declares one, the default factory
    otherwise) on the generated identifier, the configuration and that
    executable. *)
Theorem create_failure_leaves_store
    self uuid4 (config : DebugConfiguration) st e st' :
  SessionManager.create self uuid4 config st = (Throw e, st') ->
  st' = st
  /\ (Registry.provideDebugAdapterExecutable (registry self) config = Throw e
      \/ exists contrib executable,
           JsMap.get (type config) (contribs (registry self)) = Some contrib
           /\ provideDebugAdapterExecutable contrib config = Normal executable
           /\ get (match debugAdapterSessionFactory contrib with
                   | Some custom => custom
                   | None => defaultFactory self
                   end) uuid4 config executable
              = Throw e).
Proof.
  rewrite create_unfold. unfold Registry.provideDebugAdapterExecutable.
  destruct (JsMap.get (type config) (contribs (registry self)))
    as [contrib|] eqn:Hcontrib.
  - destruct (provideDebugAdapterExecutable contrib config)
      as [exe|e'] eqn:Hexe; simpl.
    + destruct (get _ uuid4 config exe) as [s|e'] eqn:Hfactory; [done|].
      intros [= <- <-]. split; [done|]. right. exists contrib, exe.
      by split_and!.
    + intros [= <- <-]. split; [done | by left].
  - intros [= <- <-]. split; [done | by left].
Qed.

Lemma create_failure_leaves_store_witness :
  (SessionManager.create (Mock.manager None (Fulfilled tt)) "9c1d"
     Mock.unknown (Mock.running (Fulfilled tt) "4f2a")).2
  = Mock.running (Fulfilled tt) "4f2a"
  /\ (SessionManager.create
        (Mock.manager (Some Mock.failing) (Fulfilled tt)) "9c1d"
        Mock.launch (Mock.running (Fulfilled tt) "4f2a")).2
     = Mock.running (Fulfilled tt) "4f2a".
Proof.
  split.
  - exact (proj1 (create_failure_leaves_store
                    (Mock.manager None (Fulfilled tt)) "9c1d" Mock.unknown
                    (Mock.running (Fulfilled tt) "4f2a")
                    (Error "Debug adapter 'nonexistent' isn't registered.")
                    _ eq_refl)).
  - exact (proj1 (create_failure_leaves_store
                    (Mock.manager (Some Mock.failing) (Fulfilled tt))
                    "9c1d" Mock.launch
                    (Mock.running (Fulfilled tt) "4f2a")
                    Mock.refused _ eq_refl)).
Defined.

(** X5: [create] changes what [find] returns for the generated identifier
    only: every other identifier is found, or not found, as before. *)
Theorem create_keeps_other_sessions
    self uuid4 (config : DebugConfiguration) (other : string) st :
  other <> uuid4 ->
  (SessionManager.find other
     (SessionManager.create self uuid4 config st).2).1
  = (SessionManager.find other st).1.
Proof.
  intros Hne. destruct (SessionManager.create self uuid4 config st)
    as [outcome st'] eqn:Hcreate.
  apply create_inv in Hcreate as [(session & -> & ->)|(e & -> & ->)];
    [|done].
  unfold SessionManager.find, gets. simpl.
  by rewrite JsMapFacts.get_set_ne.
Qed.

Lemma create_keeps_other_sessions_witness :
  (SessionManager.find "4f2a"
     (SessionManager.create (Mock.manager None (Fulfilled tt)) "9c1d"
        Mock.launch (Mock.running (Fulfilled tt) "4f2a")).2).1
  = Normal (Some (Mock.session (Fulfilled tt) "4f2a")).
Proof.
  rewrite (create_keeps_other_sessions (Mock.manager None (Fulfilled tt))
             "9c1d" Mock.launch "4f2a" (Mock.running (Fulfilled tt) "4f2a"));
    [reflexivity | done].
Defined.

(** X6: [remove] changes what [find] returns for the removed identifier only,
    for which [find] afterwards returns [undefined]. *)
Theorem remove_keeps_other_sessions (sessionId other : string) st :
  (SessionManager.find sessionId (SessionManager.remove sessionId st).2).1
  = Normal None
  /\ (other <> sessionId ->
      (SessionManager.find other (SessionManager.remove sessionId st).2).1
      = (SessionManager.find other st).1).
Proof.
  unfold SessionManager.find, SessionManager.remove, gets, modify. simpl.
  split.
  - by rewrite JsMapFacts.get_delete_eq.
  - intros Hne. by rewrite JsMapFacts.get_delete_ne.
Qed.

Lemma remove_keeps_other_sessions_witness :
  (SessionManager.find "4f2a"
     (SessionManager.remove "9c1d" (Mock.running (Fulfilled tt) "4f2a")).2).1
  = Normal (Some (Mock.session (Fulfilled tt) "4f2a")).
Proof.
  rewrite (proj2 (remove_keeps_other_sessions
                    "9c1d" "4f2a" (Mock.running (Fulfilled tt) "4f2a")));
    [reflexivity | done].
Defined.

(** X7: creating a session under an identifier that is not in the live map
    and then removing that identifier restores the store exactly. *)
Theorem create_then_remove_restores
    self uuid4 (config : DebugConfiguration) st session st' :
  JsMap.get uuid4 (sessions st) = None ->
  SessionManager.create self uuid4 config st = (Normal session, st') ->
  SessionManager.remove uuid4 st' = (Normal tt, st).
Proof.
  intros Hfresh Hcreate.
  apply create_inv in Hcreate as [(? & [= <-] & ->)|(? & [=] & _)].
  unfold SessionManager.remove, modify, set_sessions. simpl.
  rewrite JsMapFacts.delete_set_absent by done. by destruct st.
Qed.

Lemma create_then_remove_restores_witness :
  SessionManager.remove "4f2a" (Mock.running (Fulfilled tt) "4f2a")
  = (Normal tt, Mock.initial).
Proof.
  apply (create_then_remove_restores (Mock.manager None (Fulfilled tt))
           "4f2a" Mock.launch Mock.initial
           (Mock.session (Fulfilled tt) "4f2a"));
    reflexivity.
Defined.

(** X8: a session created under an identifier that is not in the live map is
    listed last: the array [findAll] returns after the call holds the
    sessions listed before the call, in the same order, followed by the
    new session. *)
Theorem create_fresh_listed_last
    self uuid4 (config : DebugConfiguration) st session st' :
  JsMap.get uuid4 (sessions st) = None ->
  SessionManager.create self uuid4 config st = (Normal session, st') ->
  exists ref st'',
    SessionManager.findAll st' = (Normal ref, st'')
    /\ readArray ref st'' = Some (JsMap.values (sessions st) ++ [session]).
Proof.
  intros Hfresh Hcreate.
  apply create_inv in Hcreate as [(? & [= <-] & ->)|(? & [=] & _)].
  eexists _, _. split; [reflexivity|].
  unfold readArray. simpl. rewrite list_lookup_middle by done.
  by rewrite JsMapFacts.values_set_absent.
Qed.

Lemma create_fresh_listed_last_witness :
  exists ref st'',
    SessionManager.findAll
      (set_sessions (JsMap.set "9c1d" (Mock.session (Fulfilled tt) "9c1d"))
                    (Mock.running (Fulfilled tt) "4f2a"))
    = (Normal ref, st'')
    /\ readArray ref st''
       = Some (JsMap.values (sessions (Mock.running (Fulfilled tt) "4f2a"))
               ++ [Mock.session (Fulfilled tt) "9c1d"]).
Proof.
  apply (create_fresh_listed_last (Mock.manager None (Fulfilled tt))
           "9c1d" Mock.launch (Mock.running (Fulfilled tt) "4f2a"));
    reflexivity.
Defined.

(** X9: when [UUID.uuid4()] yields an identifier that is already in the live
    map, [create] does not fail: the new session takes the place of the
    earlier one, which [find] no longer returns, and the number of live
    sessions stays the same. *)
Theorem create_collision_replaces
    self uuid4 (config : DebugConfiguration) st earlier session st' :
  JsMap.get uuid4 (sessions st) = Some earlier ->
  SessionManager.create self uuid4 config st = (Normal session, st') ->
  SessionManager.find uuid4 st' = (Normal (Some session), st')
  /\ JsMap.keys (sessions st') = JsMap.keys (sessions st)
  /\ length (JsMap.values (sessions st'))
     = length (JsMap.values (sessions st)).
Proof.
  intros Hearlier Hcreate.
  apply create_inv in Hcreate as [(? & [= <-] & ->)|(? & [=] & _)].
  unfold SessionManager.find, gets, JsMap.values. simpl. split_and!.
  - by rewrite JsMapFacts.get_set_eq.
  - by apply JsMapFacts.keys_set_present.
  - rewrite !length_fmap. by apply JsMapFacts.length_set_present.
Qed.

Lemma create_collision_replaces_witness :
  SessionManager.find "4f2a" (Mock.running Pending "4f2a")
  = (Normal (Some (Mock.session Pending "4f2a")), Mock.running Pending "4f2a").
Proof.
  apply (create_collision_replaces (Mock.manager None Pending) "4f2a"
           Mock.launch (Mock.running (Fulfilled tt) "4f2a")
           (Mock.session (Fulfilled tt) "4f2a"));
    reflexivity.
Defined.

Lemma execution_snoc_inv self st0 events event st :
  execution self st0 (events ++ [event]) st ->
  exists st1, execution self st0 events st1 /\ step self st1 event st.
Proof.
  remember (events ++ [event]) as all eqn:Hall.
  destruct 1 as [|events' st1 event' st' Hexec Hstep].
  - by destruct events.
  - apply app_inj_tail in Hall as [-> ->]. eauto.
Qed.

Lemma execution_nil_inv self st0 st : execution self st0 [] st -> st = st0.
Proof.
  remember [] as none eqn:Hnone.
  destruct 1 as [|events st1 event st' _ _]; [done | by destruct events].
Qed.

(** X10: starting from an empty live map, a run of successful [create] calls
    whose generated identifiers are pairwise distinct leaves exactly the
    created sessions in the map, each under its identifier and in the
    order of creation. *)
Theorem distinct_creates_all_live self st0
    (created : list (string * DebugConfiguration * DebugAdapterSession)) st :
  sessions st0 = JsMap.empty ->
  NoDup (created.*1.*1) ->
  execution self st0
    ((fun entry => Created entry.1.1 entry.1.2 (Normal entry.2)) <$> created)
    st ->
  sessions st = (fun entry => (entry.1.1, entry.2)) <$> created.
Proof.
  intros Hempty. revert st.
  induction created as [|[[uuid4 config] session] created IH] using rev_ind;
    intros st Hnd Hexec.
  - apply execution_nil_inv in Hexec as ->. by rewrite Hempty.
  - rewrite fmap_app in Hexec. simpl in Hexec.
    apply execution_snoc_inv in Hexec as (st1 & Hexec & Hstep).
    rewrite !fmap_app in Hnd. simpl in Hnd.
    apply NoDup_app in Hnd as (Hnd & Hfresh & _).
    rewrite (step_sessions _ _ _ _ Hstep), (IH _ Hnd Hexec), fmap_app.
    apply JsMapFacts.set_absent, JsMapFacts.get_None_keys.
    unfold JsMap.keys. rewrite <- list_fmap_compose.
    intros Hin. apply (Hfresh uuid4); [|by left].
    by rewrite <- list_fmap_compose.
Qed.

Lemma distinct_creates_all_live_witness :
  sessions
    (SessionManager.create (Mock.manager None (Fulfilled tt)) "9c1d"
       Mock.launch
       (SessionManager.create (Mock.manager None (Fulfilled tt)) "4f2a"
          Mock.launch Mock.initial).2).2
  = [("4f2a", Mock.session (Fulfilled tt) "4f2a");
     ("9c1d", Mock.session (Fulfilled tt) "9c1d")].
Proof.
  apply (distinct_creates_all_live (Mock.manager None (Fulfilled tt))
           Mock.initial
           [("4f2a", Mock.launch, Mock.session (Fulfilled tt) "4f2a");
            ("9c1d", Mock.launch, Mock.session (Fulfilled tt) "9c1d")]).
  - reflexivity.
  - simpl. apply NoDup_cons. split; [|apply NoDup_singleton].
    by intros [=]%list_elem_of_singleton.
  - apply (execution_snoc _ _ [Created "4f2a" Mock.launch _]
                          (Mock.running (Fulfilled tt) "4f2a")
                          (Created "9c1d" Mock.launch _)).
    + apply (execution_snoc _ _ [] Mock.initial
                            (Created "4f2a" Mock.launch _));
        [apply execution_nil | apply step_create; reflexivity].
    + apply step_create. reflexivity.
Defined.
End ManagerBookkeeping.

(** ** Further properties of the debug service *)

Section ServiceLifecycle.
Implicit Types (self : DebugServiceImpl) (st : State).

(** X11: [start] fulfils only when [create] returned a session and that
    session's handshake succeeded; the value it fulfils with is the
    session's [id], the session is in the live map under the generated
    identifier, and the session received exactly one [start()] call. *)
Theorem start_fulfils_after_handshake
    self uuid4 (config : DebugConfiguration) st sessionId st' :
  DebugService.start self uuid4 config st = (Fulfilled sessionId, st') ->
  exists session st1,
    SessionManager.create (sessionManager self) uuid4 config st
    = (Normal session, st1)
    /\ start session = Fulfilled tt
    /\ sessionId = id session
    /\ SessionManager.find uuid4 st' = (Normal (Some session), st')
    /\ transport st' = transport st ++ [CallStart session].
Proof.
  rewrite start_unfold.
  destruct (SessionManager.create _ _ _ _) as [[session|e] st1] eqn:Hcreate;
    [|done].
  destruct (start session) as [[]| |] eqn:Hhandshake; simpl; [|done..].
  intros [= <- <-]. exists session, st1.
  apply create_inv in Hcreate as [(? & [= <-] & ->)|(? & [=] & _)].
  split_and!; try done.
  unfold SessionManager.find, gets. simpl.
  by rewrite JsMapFacts.get_set_eq.
Qed.

Lemma start_fulfils_after_handshake_witness :
  exists session st1,
    SessionManager.create
      (sessionManager (Mock.service None (Fulfilled tt))) "4f2a"
      Mock.launch Mock.initial
    = (Normal session, st1)
    /\ start session = Fulfilled tt
    /\ "4f2a" = id session.
Proof.
  destruct (start_fulfils_after_handshake
              (Mock.service None (Fulfilled tt)) "4f2a" Mock.launch
              Mock.initial "4f2a" _ eq_refl)
    as (session & st1 & Hcreate & Hhandshake & Hid & _).
  by exists session, st1.
Defined.

(** X12: when [create] throws, [start] rejects with the same error, calls
    [start()] on no session and leaves the store as it was. *)
Theorem start_rejects_when_create_throws
    self uuid4 (config : DebugConfiguration) st e st1 :
  SessionManager.create (sessionManager self) uuid4 config st
  = (Throw e, st1) ->
  DebugService.start self uuid4 config st = (Rejected e, st).
Proof.
  intros Hcreate. rewrite start_unfold, Hcreate.
  by apply create_inv in Hcreate as [(? & [=] & _)|(? & _ & ->)].
Qed.

Lemma start_rejects_when_create_throws_witness :
  DebugService.start (Mock.service None (Fulfilled tt)) "9c1d" Mock.unknown
                     (Mock.running (Fulfilled tt) "4f2a")
  = (Rejected (Error "Debug adapter 'nonexistent' isn't registered."),
     Mock.running (Fulfilled tt) "4f2a").
Proof.
  apply (start_rejects_when_create_throws
           (Mock.service None (Fulfilled tt)) "9c1d" Mock.unknown
           (Mock.running (Fulfilled tt) "4f2a") _
           (Mock.running (Fulfilled tt) "4f2a")).
  reflexivity.
Defined.

(** X13: while the handshake has not settled the promise of [start] has not
    settled either, and the session is already in the live map: [start]
    is pending only if [create] returned a session whose handshake is
    pending, and [find] with the generated identifier returns that
    session. *)
Theorem start_pending_session_is_live
    self uuid4 (config : DebugConfiguration) st st' :
  DebugService.start self uuid4 config st = (Pending, st') ->
  exists session st1,
    SessionManager.create (sessionManager self) uuid4 config st
    = (Normal session, st1)
    /\ start session = Pending
    /\ SessionManager.find uuid4 st' = (Normal (Some session), st').
Proof.
  rewrite start_unfold.
  destruct (SessionManager.create _ _ _ _) as [[session|e] st1] eqn:Hcreate;
    [|done].
  destruct (start session) as [[]| |] eqn:Hhandshake; simpl; [done..|].
  intros [= <-]. exists session, st1.
  apply create_inv in Hcreate as [(? & [= <-] & ->)|(? & [=] & _)].
  split_and!; try done.
  unfold SessionManager.find, gets. simpl.
  by rewrite JsMapFacts.get_set_eq.
Qed.

Lemma start_pending_session_is_live_witness :
  exists session st1,
    SessionManager.create (sessionManager (Mock.service None Pending)) "4f2a"
                          Mock.launch Mock.initial
    = (Normal session, st1)
    /\ start session = Pending.
Proof.
  destruct (start_pending_session_is_live
              (Mock.service None Pending) "4f2a" Mock.launch
              Mock.initial _ eq_refl)
    as (session & st1 & Hcreate & Hhandshake & _).
  by exists session, st1.
Defined.

(** X14: a session can be stopped as soon as [start] has been called, whatever
    the state of its handshake: when [start] generated a session under a
    non-empty identifier, [dispose] with that identifier sends [stop()]
    to that very session, after its [start()], and the session stays in
    the live map. *)
Theorem dispose_after_start
    self uuid4 (config : DebugConfiguration) st session st1 :
  uuid4 <> "" ->
  SessionManager.create (sessionManager self) uuid4 config st
  = (Normal session, st1) ->
  exists st'',
    DebugService.dispose self (Some uuid4)
                         (DebugService.start self uuid4 config st).2
    = (Fulfilled tt, st'')
    /\ transport st''
       = transport st ++ [CallStart session; CallStop session]
    /\ SessionManager.find uuid4 st'' = (Normal (Some session), st'').
Proof.
  intros Hne Hcreate. rewrite start_unfold, Hcreate, dispose_unfold.
  apply create_inv in Hcreate as [(? & [= <-] & ->)|(? & [=] & _)].
  simpl. rewrite decide_False by done. simpl.
  rewrite JsMapFacts.get_set_eq. eexists. split; [reflexivity|].
  unfold SessionManager.find, gets. simpl.
  rewrite JsMapFacts.get_set_eq, <- app_assoc. done.
Qed.

Lemma dispose_after_start_witness :
  exists st'',
    DebugService.dispose (Mock.service None Pending) (Some "4f2a")
      (DebugService.start (Mock.service None Pending) "4f2a"
                          Mock.launch Mock.initial).2
    = (Fulfilled tt, st'')
    /\ transport st''
       = [CallStart (Mock.session Pending "4f2a");
          CallStop (Mock.session Pending "4f2a")].
Proof.
  destruct (dispose_after_start (Mock.service None Pending) "4f2a"
              Mock.launch Mock.initial (Mock.session Pending "4f2a")
              (Mock.running Pending "4f2a"))
    as (st'' & Hdispose & Htransport & _); [done | reflexivity |].
  by exists st''.
Defined.

(** X15: once a non-empty identifier has been removed, [dispose] with it does
    nothing at all: the promise fulfils and the store is unchanged. *)
Theorem dispose_after_remove self (sessionId : string) st :
  sessionId <> "" ->
  DebugService.dispose self (Some sessionId)
                       (SessionManager.remove sessionId st).2
  = (Fulfilled tt, (SessionManager.remove sessionId st).2).
Proof.
  intros Hne. rewrite dispose_unfold. simpl.
  rewrite decide_False by done.
  by rewrite JsMapFacts.get_delete_eq.
Qed.

Lemma dispose_after_remove_witness :
  DebugService.dispose (Mock.service None (Fulfilled tt)) (Some "4f2a")
    (SessionManager.remove "4f2a" (Mock.running (Fulfilled tt) "4f2a")).2
  = (Fulfilled tt, Mock.initial).
Proof.
  apply (dispose_after_remove (Mock.service None (Fulfilled tt)) "4f2a"
           (Mock.running (Fulfilled tt) "4f2a")).
  done.
Defined.

(** X16: the service's [debugTypes()] always fulfils, and the types it lists
    are exactly those for which the service's
    [provideDebugConfigurations] fulfils; for every other type that
    method rejects with the "isn't registered" error. *)
Theorem service_lists_queryable_types self (t : string) :
  exists types,
    DebugService.debugTypes self = Fulfilled types
    /\ (t ∈ types
        <-> exists configs,
              DebugService.provideDebugConfigurations self t
              = Fulfilled configs)
    /\ (t ∉ types
        <-> DebugService.provideDebugConfigurations self t
            = Rejected (Registry.notRegistered t)).
Proof.
  exists (Registry.debugTypes (serviceRegistry self)).
  unfold DebugService.debugTypes, DebugService.provideDebugConfigurations,
    Registry.provideDebugConfigurations.
  split; [done|].
  rewrite unregistered_get, registered_get.
  destruct (JsMap.get t (contribs (serviceRegistry self))) as [contrib|];
    simpl; split; split; try done; eauto; by intros [? ?].
Qed.

(** X17: the service's [resolveDebugConfiguration] always settles. It fulfils
    exactly with what the contributor registered under the
    configuration's type returns, and it rejects either with the "isn't
    registered" error, when there is no such contributor, or with the
    very value that contributor threw. *)
Theorem service_resolve_settles self (config : DebugConfiguration) :
  DebugService.resolveDebugConfiguration self config <> Pending
  /\ (forall resolved,
        DebugService.resolveDebugConfiguration self config
        = Fulfilled resolved
        <-> exists contrib,
              JsMap.get (type config) (contribs (serviceRegistry self))
              = Some contrib
              /\ resolveDebugConfiguration contrib config = Normal resolved)
  /\ (forall e,
        DebugService.resolveDebugConfiguration self config = Rejected e
        <-> (JsMap.get (type config) (contribs (serviceRegistry self)) = None
             /\ e = Registry.notRegistered (type config))
            \/ exists contrib,
                 JsMap.get (type config) (contribs (serviceRegistry self))
                 = Some contrib
                 /\ resolveDebugConfiguration contrib config = Throw e).
Proof.
  unfold DebugService.resolveDebugConfiguration,
    Registry.resolveDebugConfiguration.
  destruct (JsMap.get (type config) (contribs (serviceRegistry self)))
    as [contrib|]; simpl.
  - destruct (resolveDebugConfiguration contrib config) as [r|e'] eqn:Hr;
      simpl; split_and!; try done.
    + intros resolved. split.
      * intros [= <-]. eauto.
      * intros (? & [= <-] & Hc). congruence.
    + intros e. split; [done|]. intros [[[=] _]|(? & [= <-] & Hc)].
      congruence.
    + intros resolved. split; [done|]. intros (? & [= <-] & Hc). congruence.
    + intros e. split.
      * intros [= <-]. right. eauto.
      * intros [[[=] _]|(? & [= <-] & Hc)]. congruence.
  - split_and!; try done.
    + intros resolved. split; [done | by intros (? & [=] & _)].
    + intros e. split.
      * intros [= <-]. by left.
      * intros [[_ ->]|(? & [=] & _)]. done.
Qed.
End ServiceLifecycle.
